(** * Cross DEX Arbitrage: the detection entry point of [src/index.ts]

    A shallow embedding of the TypeScript service: the per-chain gas table,
    [findArbitrage] with its candidate table and its two filters, the
    [ArbitrageInputSchema] validation, the paid entry point's handler and the
    internal HTTP route. The per-chain fetches and the orchestrator that
    collects them are not part of that file; module [Orchestrator] models
    them from the design document.

    JavaScript numbers are IEEE 754 binary64 values; they are modelled by the
    kernel's primitive [float], whose operations are the same binary64
    operations, so that [4.0 - gasCost] and [>=] compute here what they
    compute in the program. *)

From Stdlib Require Import PrimFloat Bool List String Ascii PeanoNat ZArith.
From Stdlib Require Import SpecFloat FloatAxioms Lia Permutation.
Import ListNotations.

Set Warnings "-inexact-float,-register-all".

Local Open Scope string_scope.
Local Open Scope list_scope.

(** ** JavaScript primitives used by the service *)

Module Js.

Definition number := float.

(** [ToBoolean] on a number: [+0], [-0] and [NaN] are falsy. *)
Definition truthy (x : number) : bool :=
  negb (PrimFloat.eqb x 0%float || PrimFloat.is_nan x).

(** [e || d] where [e] is a number or [undefined]. *)
Definition or_default (e : option number) (d : number) : number :=
  match e with
  | Some v => if truthy v then v else d
  | None => d
  end.

(** [ToBoolean] on a string or [undefined]: only a non-empty string is
    truthy. *)
Definition truthy_str (s : option string) : bool :=
  match s with
  | Some (String _ _) => true
  | _ => false
  end.

(** [a !== b] on values that are a string or [undefined]. *)
Definition strict_neq (a b : option string) : bool :=
  match a, b with
  | Some x, Some y => negb (String.eqb x y)
  | None, None => false
  | _, _ => true
  end.

(** [String.prototype.toLowerCase] on the characters A..Z. Strings are
    held as byte strings; every token address of the candidate table is
    made of the characters 0-9, a-f, A-F and x, and no character outside
    A..Z lower-cases to one of those, so the comparison of
    [findArbitrage] is decided by this mapping. *)
Definition lower_ascii (c : ascii) : ascii :=
  let n := nat_of_ascii c in
  if (65 <=? n)%nat && (n <=? 90)%nat then ascii_of_nat (n + 32) else c.

Fixpoint toLowerCase (s : string) : string :=
  match s with
  | EmptyString => EmptyString
  | String c r => String (lower_ascii c) (toLowerCase r)
  end.

(** [x >= y] and [x > y] on numbers (false as soon as one side is NaN). *)
Definition ge (x y : number) : bool := PrimFloat.leb y x.
Definition gt (x y : number) : bool := PrimFloat.ltb y x.

End Js.

(** ** Parsed JSON bodies and the zod schema *)

Module Zod.

Import Js.

(** The value [c.req.json()] resolves to. An object is the list of its
    own properties; [get] reads the first binding of a key. *)
Inductive json : Type :=
| JNull
| JBool (b : bool)
| JNum (x : number)
| JStr (s : string)
| JArr (items : list json)
| JObj (fields : list (string * json)).

Fixpoint get (fields : list (string * json)) (key : string) : option json :=
  match fields with
  | [] => None
  | (k, v) :: rest => if String.eqb k key then Some v else get rest key
  end.

(** [z.number()]: a value of type number that is finite; NaN and the two
    infinities (which a JSON body can carry, as [1e999]) are refused. *)
Definition z_number (v : option json) : option number :=
  match v with
  | Some (JNum x) => if PrimFloat.is_finite x then Some x else None
  | _ => None
  end.

(** [z.string()] *)
Definition z_string (v : json) : option string :=
  match v with
  | JStr s => Some s
  | _ => None
  end.

(** [z.array(z.string())] on the items of an array. *)
Fixpoint z_strings (items : list json) : option (list string) :=
  match items with
  | [] => Some []
  | v :: rest =>
      match z_string v, z_strings rest with
      | Some s, Some ss => Some (s :: ss)
      | _, _ => None
      end
  end.

(** [z.array(z.string()).optional()]: an absent key is accepted and
    yields [undefined]. *)
Definition z_optional_strings (v : option json) : option (option (list string)) :=
  match v with
  | None => Some None
  | Some (JArr items) => option_map Some (z_strings items)
  | Some _ => None
  end.

(** A [ZodError] records one issue per offending place; an issue is kept
    here by the top-level key it arises under, the root by [None]. *)
Definition issues := list (option string).

End Zod.

(** ** The service *)

Module Arbitrage.

Import Js Zod.

(** [ArbitrageInputSchema] (index.ts, lines 6-10): the validated input. *)
Record ArbitrageInput : Type := mkInput {
  chain_id : number;
  min_profit_pct : number;
  token_addresses : option (list string)
}.

Definition issue_if {A} (key : string) (r : option A) : issues :=
  match r with
  | Some _ => []
  | None => [Some key]
  end.

(** [ArbitrageInputSchema.parse]: the three keys of the schema are read,
    any other key of the object is dropped; the result is the validated
    input or the issues of the thrown [ZodError]. *)
Definition ArbitrageInputSchema_parse (v : json) : issues + ArbitrageInput :=
  match v with
  | JObj fields =>
      let c := z_number (get fields "chain_id") in
      let m := z_number (get fields "min_profit_pct") in
      let t := z_optional_strings (get fields "token_addresses") in
      match c, m, t with
      | Some c', Some m', Some t' => inr (mkInput c' m' t')
      | _, _, _ =>
          inl (issue_if "chain_id" c ++ issue_if "min_profit_pct" m
               ++ issue_if "token_addresses" t)
      end
  | _ => inl [None]
  end.

(** [interface ArbitrageOpportunity] (lines 55-67). *)
Record ArbitrageOpportunity : Type := mkOpp {
  token_symbol : string;
  token_address : option string;
  buy_dex : string;
  sell_dex : string;
  buy_price : number;
  sell_price : number;
  profit_percentage : number;
  profit_usd_per_1k : number;
  gas_cost_usd : number;
  net_profit_usd : number;
  executable : bool
}.

(** [CHAIN_GAS_COSTS] (lines 69-76). The keys of the object are the
    decimal strings of these integers; indexing by a number [c] reads the
    key [String(c)], which is one of them exactly when [c] is numerically
    that integer. *)
Definition CHAIN_GAS_COSTS : list (number * number) :=
  [ (1, 5.0); (8453, 0.01); (42161, 0.15);
    (10, 0.05); (137, 0.02); (56, 0.08) ]%float.

Fixpoint index_by_number (tbl : list (number * number)) (c : number)
  : option number :=
  match tbl with
  | [] => None
  | (k, v) :: rest =>
      if PrimFloat.eqb c k then Some v else index_by_number rest c
  end.

(** Line 90: [CHAIN_GAS_COSTS[chainId] || 2.5]. *)
Definition gasCostOf (chainId : number) : number :=
  or_default (index_by_number CHAIN_GAS_COSTS chainId) 2.5%float.

(** Lines 94-134: the candidate table, built around the resolved gas
    cost. *)
Definition mockOpportunities (gasCost : number) : list ArbitrageOpportunity :=
  [ mkOpp "USDC" (Some "0xA0b86991c6218b36c1d19D4a2e9Eb0cE3606eB48")
      "Uniswap V3" "SushiSwap"
      0.998%float 1.002%float 0.4%float 4.0%float
      gasCost (4.0 - gasCost)%float (gt (4.0 - gasCost)%float 0%float);
    mkOpp "WETH" (Some "0xC02aaA39b223FE8D0A0e5C4F27eAD9083C756Cc2")
      "Curve" "Balancer"
      2485.5%float 2497.8%float 0.49%float 4.9%float
      gasCost (4.9 - gasCost)%float (gt (4.9 - gasCost)%float 0%float);
    mkOpp "USDT" (Some "0xdAC17F958D2ee523a2206206994597C13D831ec7")
      "Uniswap V2" "Pancakeswap"
      0.9985%float 1.0005%float 0.2%float 2.0%float
      gasCost (2.0 - gasCost)%float (gt (2.0 - gasCost)%float 0%float) ].

(** Line 138: the predicate of the first filter. *)
Definition meets_min_profit (minProfitPct : number) (opp : ArbitrageOpportunity)
  : bool :=
  ge (profit_percentage opp) minProfitPct.

(** Lines 144-146: [tokenAddresses.some(addr =>
    opp.token_address?.toLowerCase() === addr.toLowerCase())]. An absent
    address gives [undefined], which is never [===] to a string. *)
Definition address_listed (tokenAddresses : list string)
  (opp : ArbitrageOpportunity) : bool :=
  existsb
    (fun addr =>
       match token_address opp with
       | Some a => String.eqb (toLowerCase a) (toLowerCase addr)
       | None => false
       end)
    tokenAddresses.

(** Lines 136-150: the two filters, over any candidate list. *)
Definition select (candidates : list ArbitrageOpportunity)
  (minProfitPct : number) (tokenAddresses : option (list string))
  : list ArbitrageOpportunity :=
  let opportunities := filter (meets_min_profit minProfitPct) candidates in
  match tokenAddresses with
  | Some addrs =>
      if (0 <? List.length addrs)%nat
      then filter (address_listed addrs) opportunities
      else opportunities
  | None => opportunities
  end.

(** [findArbitrage] (lines 78-151). The promise it returns always
    resolves, so it is a total function. *)
Definition findArbitrage (chainId minProfitPct : number)
  (tokenAddresses : option (list string)) : list ArbitrageOpportunity :=
  let gasCost := gasCostOf chainId in
  select (mockOpportunities gasCost) minProfitPct tokenAddresses.

(** What the handlers read from their surroundings: the clock, as the
    string [new Date().toISOString()] gives, and
    [process.env.INTERNAL_API_KEY]. *)
Record Env : Type := mkEnv {
  now_iso : string;
  INTERNAL_API_KEY : option string
}.

(** [ArbitrageOutputSchema] (lines 13-29). *)
Record ArbitrageOutput : Type := mkOutput {
  opportunities : list ArbitrageOpportunity;
  total_found : nat;
  timestamp : string
}.

(** The handler of the paid entry point (lines 160-174). *)
Definition handler (env : Env) (input : ArbitrageInput) : ArbitrageOutput :=
  let opps :=
    findArbitrage (chain_id input) (min_profit_pct input)
      (token_addresses input) in
  mkOutput opps (List.length opps) (now_iso env).

(** The entry point as registered with [input: ArbitrageInputSchema]: the
    body is validated against the schema, then handed to the handler. *)
Definition entrypoint (env : Env) (body : json) : issues + ArbitrageOutput :=
  match ArbitrageInputSchema_parse body with
  | inl e => inl e
  | inr input => inr (handler env input)
  end.

(** A request to the internal route: the [X-Internal-API-Key] header and
    the body, [None] when it is not JSON ([c.req.json()] throws). *)
Record Request : Type := mkRequest {
  api_key_header : option string;
  body : option json
}.

Inductive Exn : Type :=
| SyntaxError
| ZodError (iss : issues).

(** The JSON payload of a response: [{ error: ... }] with a fixed text or
    with the message of the caught exception, or the report. *)
Inductive Payload : Type :=
| ErrorText (msg : string)
| ErrorOf (e : Exn)
| Report (out : ArbitrageOutput).

Record Response : Type := mkResponse {
  status : Z;
  payload : Payload
}.

(** [POST /api/internal/cross-dex-arbitrage] (lines 181-218). *)
Definition internal_api (env : Env) (req : Request) : Response :=
  let apiKey := api_key_header req in
  let expectedKey := INTERNAL_API_KEY env in
  if negb (truthy_str expectedKey) then
    mkResponse 500 (ErrorText "Server configuration error")
  else if strict_neq apiKey expectedKey then
    mkResponse 401 (ErrorText "Unauthorized")
  else
    match body req with
    | None => mkResponse 500 (ErrorOf SyntaxError)
    | Some input =>
        match ArbitrageInputSchema_parse input with
        | inl iss => mkResponse 500 (ErrorOf (ZodError iss))
        | inr validatedInput =>
            let opps :=
              findArbitrage (chain_id validatedInput)
                (min_profit_pct validatedInput)
                (token_addresses validatedInput) in
            mkResponse 200 (Report (mkOutput opps (List.length opps) (now_iso env)))
        end
    end.

(** The report carried by a response, if it carries one. *)
Definition report_of (r : Response) : option ArbitrageOutput :=
  match payload r with
  | Report out => Some out
  | _ => None
  end.

End Arbitrage.

(** ** The design document's formulas, for comparison *)

Module Spec.

Import Js.

(** Section 4.4: the fee of one leg, [bps] basis points of the notional. *)
Definition dex_fee_usd (notional bps : number) : number :=
  (notional * bps / 10000)%float.

(** Section 3: [profit_usd = (sell_value_usd - buy_value_usd)
    - gas_cost_usd - dex_fee_usd]. *)
Definition profit_usd (gross gas_cost fee : number) : number :=
  (gross - gas_cost - fee)%float.

(** [x] is within [tol] of [y]. *)
Definition approx (x y tol : number) : bool :=
  PrimFloat.leb (PrimFloat.abs (x - y)%float) tol.

End Spec.

(** ** Derived notions used in the statements *)

Module Props.

Import Js Zod Arbitrage.

(** Each entry's net profit is at least that of the entry after it. *)
Fixpoint non_increasing_net (l : list ArbitrageOpportunity) : bool :=
  match l with
  | a :: (b :: _) as rest =>
      ge (net_profit_usd a) (net_profit_usd b) && non_increasing_net rest
  | _ => true
  end.

(** The head's net profit is at least that of every entry. *)
Definition head_is_best (l : list ArbitrageOpportunity) : bool :=
  match l with
  | [] => true
  | a :: _ => forallb (fun b => ge (net_profit_usd a) (net_profit_usd b)) l
  end.

(** An entry with the given symbol is in the list. *)
Definition returned (symbol : string) (l : list ArbitrageOpportunity) : bool :=
  existsb (fun o => String.eqb (token_symbol o) symbol) l.

(** The conjunction of the two tests an entry has to pass to be
    returned. *)
Definition passes (minProfitPct : number) (tokenAddresses : option (list string))
  (opp : ArbitrageOpportunity) : bool :=
  meets_min_profit minProfitPct opp
  && match tokenAddresses with
     | Some ((_ :: _) as addrs) => address_listed addrs opp
     | _ => true
     end.

(** The values of [CHAIN_GAS_COSTS] and the fallback. *)
Definition gas_costs : list number :=
  (map snd CHAIN_GAS_COSTS ++ [2.5])%float.

(** A chain id is configured when it is a key of [CHAIN_GAS_COSTS]. *)
Definition configured (chainId : number) : bool :=
  existsb (fun kv => PrimFloat.eqb chainId (fst kv)) CHAIN_GAS_COSTS.

(** Concrete surroundings and requests used in the examples. *)
Definition env0 : Env := mkEnv "2025-10-31T12:00:00.000Z" (Some "k3y").

Definition authorised (b : json) : Request := mkRequest (Some "k3y") (Some b).

Definition usdc_address : string := "0xA0b86991c6218b36c1d19D4a2e9Eb0cE3606eB48".

(** A body in the shape the design document gives for the core's
    request. *)
Definition spec_shaped_body : json :=
  JObj [ ("token_in", JStr "USDC"); ("token_out", JStr "USDT");
         ("amount_in", JNum 1000%float);
         ("chain_ids", JArr [JNum 137%float; JNum 8453%float]) ].

(** A body in the schema's shape, carrying an [amount_in] of zero
    besides. *)
Definition zero_amount_body : json :=
  JObj [ ("chain_id", JNum 8453%float); ("min_profit_pct", JNum 0.1%float);
         ("amount_in", JNum 0%float) ].

End Props.

(** ** Checks read off the schemas and the route *)

Module Checks.

Import Js Zod Arbitrage.

(** [z.number()] on a value that is a number already: NaN and the
    infinities are refused. *)
Definition is_number (x : number) : bool := PrimFloat.is_finite x.

(** [ArbitrageOutputSchema] (lines 13-29) on a report the handlers build:
    the string and boolean fields are such by construction and
    [total_found] is a length, so what the schema can still refuse is a
    number field of an opportunity that is not finite. *)
Definition opportunity_conforms (o : ArbitrageOpportunity) : bool :=
  is_number (buy_price o) && is_number (sell_price o)
  && is_number (profit_percentage o) && is_number (profit_usd_per_1k o)
  && is_number (gas_cost_usd o) && is_number (net_profit_usd o).

Definition ArbitrageOutputSchema_accepts (out : ArbitrageOutput) : bool :=
  forallb opportunity_conforms (opportunities out).

(** The six number fields of an opportunity. *)
Definition numbers_of (o : ArbitrageOpportunity) : list number :=
  [ buy_price o; sell_price o; profit_percentage o; profit_usd_per_1k o;
    gas_cost_usd o; net_profit_usd o ].

(** Lines 187-194: the key is configured and the header is equal to it. *)
Definition key_accepted (env : Env) (req : Request) : bool :=
  truthy_str (INTERNAL_API_KEY env)
  && negb (strict_neq (api_key_header req) (INTERNAL_API_KEY env)).

(** Lines 197-200: the body is JSON and passes the schema. *)
Definition body_accepted (req : Request) : bool :=
  match body req with
  | Some b =>
      match ArbitrageInputSchema_parse b with
      | inr _ => true
      | inl _ => false
      end
  | None => false
  end.

(** The keys [ArbitrageInputSchema] declares. *)
Definition schema_keys : list string :=
  ["chain_id"; "min_profit_pct"; "token_addresses"].

End Checks.

(** ** The orchestrator of the design document *)

Module Orchestrator.

Import Js.














End Orchestrator.

Import Js Zod Arbitrage Props.

(** ** Auxiliary lemmas *)

Lemma filter_filter {A} (f g : A -> bool) (l : list A) :
  filter g (filter f l) = filter (fun x => f x && g x) l.
Proof.
  induction l as [|x l IH]; simpl; [reflexivity|].
  destruct (f x); simpl; [|exact IH].
  destruct (g x); now rewrite IH.
Qed.

Section Filters.

Variables (minProfitPct : number) (tokenAddresses : option (list string)).

Lemma select_filter (candidates : list ArbitrageOpportunity) :
  select candidates minProfitPct tokenAddresses
  = filter (passes minProfitPct tokenAddresses) candidates.
Proof.
  unfold select, passes.
  destruct tokenAddresses as [[|a addrs]|].
  - apply filter_ext; intro o; now rewrite andb_true_r.
  - change (0 <? List.length (a :: addrs))%nat with true; cbv iota.
    apply filter_filter.
  - apply filter_ext; intro o; now rewrite andb_true_r.
Qed.

Lemma select_In (candidates : list ArbitrageOpportunity) (opp : ArbitrageOpportunity) :
  In opp (select candidates minProfitPct tokenAddresses) ->
  In opp candidates /\ passes minProfitPct tokenAddresses opp = true.
Proof.
  rewrite select_filter. apply filter_In.
Qed.

End Filters.

Lemma address_listed_match (addrs : list string) (opp : ArbitrageOpportunity) :
  address_listed addrs opp = true ->
  exists a addr,
    token_address opp = Some a /\ In addr addrs
    /\ toLowerCase a = toLowerCase addr.
Proof.
  unfold address_listed. intro H.
  apply existsb_exists in H. destruct H as (addr & Hin & Heq).
  destruct (token_address opp) as [a|]; [|discriminate].
  exists a, addr. repeat split; trivial. now apply String.eqb_eq.
Qed.

Lemma gasCostOf_cases (c : number) : In (gasCostOf c) gas_costs.
Proof.
  unfold gasCostOf, gas_costs, CHAIN_GAS_COSTS, index_by_number.
  repeat match goal with
         | |- context [PrimFloat.eqb c ?k] => destruct (PrimFloat.eqb c k)
         end;
    vm_compute; tauto.
Qed.

Lemma gasCostOf_unconfigured (c : number) :
  configured c = false -> gasCostOf c = 2.5%float.
Proof.
  unfold configured, gasCostOf, CHAIN_GAS_COSTS, existsb, index_by_number, fst.
  repeat match goal with
         | |- context [PrimFloat.eqb c ?k] => destruct (PrimFloat.eqb c k)
         end;
    simpl; intro H; try discriminate H; reflexivity.
Qed.

Lemma findArbitrage_In (c m : number) (t : option (list string))
  (opp : ArbitrageOpportunity) :
  In opp (findArbitrage c m t) ->
  In opp (mockOpportunities (gasCostOf c)) /\ passes m t opp = true.
Proof.
  unfold findArbitrage. apply select_In.
Qed.

Local Open Scope float_scope.

(** Case analysis on the resolved gas cost: it is one of the seven values
    the table and the fallback can give. *)
Ltac gas_cases c g :=
  let Hg := fresh "Hg" in
  pose proof (gasCostOf_cases c) as Hg;
  set (g := gasCostOf c) in *; clearbody g;
  unfold gas_costs in Hg; simpl in Hg;
  repeat (destruct Hg as [Hg | Hg]; [subst g | ]); [.. | destruct Hg].

(** Picks an element of a list that evaluates to a non-empty one. *)
Ltac first_entry := vm_compute; left; reflexivity.

(** ** Net profit (C1, C3, C8) *)

(** C1, as the code has it: every returned opportunity reports
    [net_profit_usd = profit_usd_per_1k - gas_cost_usd], where the gas cost
    is the one resolved for the requested chain. The figure is gross minus
    gas only: no DEX fee is part of it. *)
Theorem net_profit_is_gross_minus_gas
  (c m : number) (t : option (list string)) (opp : ArbitrageOpportunity) :
  In opp (findArbitrage c m t) ->
  net_profit_usd opp = (profit_usd_per_1k opp - gas_cost_usd opp)%float
  /\ gas_cost_usd opp = gasCostOf c.
Proof.
  intro H. apply findArbitrage_In in H. destruct H as [H _].
  set (g := gasCostOf c) in *. clearbody g.
  unfold mockOpportunities in H. simpl In in H.
  destruct H as [<- | [<- | [<- | []]]]; split; reflexivity.
Qed.

Lemma net_profit_is_gross_minus_gas_witness :
  exists opp,
    In opp (findArbitrage 8453 0 None)
    /\ (net_profit_usd opp = (profit_usd_per_1k opp - gas_cost_usd opp)%float
        /\ gas_cost_usd opp = gasCostOf 8453).
Proof.
  eexists. split.
  - first_entry.
  - apply (net_profit_is_gross_minus_gas 8453 0 None). first_entry.
Defined.

(** C1 fails as stated: on Base (gas 0.01) the USDC entry reports a net
    profit that differs from gross - gas - fee, for the 30 bps fee on the
    1000 USD notional, by the whole fee of 3 USD. *)
Lemma net_profit_omits_dex_fee :
  exists opp,
    In opp (findArbitrage 8453 0 None)
    /\ PrimFloat.eqb (net_profit_usd opp)
         (Spec.profit_usd (profit_usd_per_1k opp) (gas_cost_usd opp)
            (Spec.dex_fee_usd 1000 30)) = false
    /\ Spec.approx
         (net_profit_usd opp
          - Spec.profit_usd (profit_usd_per_1k opp) (gas_cost_usd opp)
              (Spec.dex_fee_usd 1000 30))%float
         3 1e-9 = true.
Proof.
  eexists. split; [first_entry|].
  split; vm_compute; reflexivity.
Qed.

(** C3, as the code has it: on Base the first entry is the 0.998 / 1.002
    quote with gas 0.01; its spread is 0.4 percent, that is 40 bps, its
    gross profit on 1000 USD is 4.0 and its net profit is 4.0 - 0.01, about
    3.99 (no fee deducted); it is marked executable. *)
Theorem base_usdc_scenario :
  exists opp rest,
    findArbitrage 8453 0 None = opp :: rest
    /\ buy_price opp = 0.998%float
    /\ sell_price opp = 1.002%float
    /\ gas_cost_usd opp = 0.01%float
    /\ Spec.approx (profit_percentage opp * 100)%float 40 1e-9 = true
    /\ profit_usd_per_1k opp = 4.0%float
    /\ net_profit_usd opp = (4.0 - 0.01)%float
    /\ Spec.approx (net_profit_usd opp) 3.99 1e-9 = true
    /\ executable opp = true.
Proof.
  do 2 eexists. split; [vm_compute; reflexivity|].
  repeat split; vm_compute; reflexivity.
Qed.

(** C3 fails as stated: the net profit reported for that scenario is not
    within 2.99 USD of 0.99. *)
Lemma base_usdc_net_is_not_099 :
  exists opp rest,
    findArbitrage 8453 0 None = opp :: rest
    /\ buy_price opp = 0.998%float
    /\ sell_price opp = 1.002%float
    /\ gas_cost_usd opp = 0.01%float
    /\ Spec.approx (net_profit_usd opp) 0.99 2.99 = false.
Proof.
  do 2 eexists. split; [vm_compute; reflexivity|].
  repeat split; vm_compute; reflexivity.
Qed.

(** C8: for every chain id and every returned opportunity, the net profit
    is at most the gross profit: the gas cost that is subtracted is one of
    the seven positive values the table and the fallback give. *)
Theorem net_le_gross
  (c m : number) (t : option (list string)) (opp : ArbitrageOpportunity) :
  In opp (findArbitrage c m t) ->
  PrimFloat.leb (net_profit_usd opp) (profit_usd_per_1k opp) = true.
Proof.
  intro H. apply findArbitrage_In in H. destruct H as [H _].
  gas_cases c g;
    unfold mockOpportunities in H; simpl In in H;
    destruct H as [<- | [<- | [<- | []]]]; vm_compute; reflexivity.
Qed.

Lemma net_le_gross_witness :
  exists opp,
    In opp (findArbitrage 1 0 None)
    /\ PrimFloat.leb (net_profit_usd opp) (profit_usd_per_1k opp) = true.
Proof.
  eexists. split.
  - first_entry.
  - apply (net_le_gross 1 0 None). first_entry.
Defined.

(** ** Order of the returned list (C2) *)

(** C2, as the code has it: the returned list is the candidate table with
    the entries that fail a filter removed, in the table's order (USDC,
    WETH, USDT); no sort by net profit is applied. The list is in
    non-increasing order of net profit, and its head is its best entry,
    exactly when the USDC and the WETH entries are not both returned. *)
Theorem returned_in_table_order (c m : number) (t : option (list string)) :
  findArbitrage c m t = filter (passes m t) (mockOpportunities (gasCostOf c))
  /\ non_increasing_net (findArbitrage c m t)
     = negb (returned "USDC" (findArbitrage c m t)
             && returned "WETH" (findArbitrage c m t))
  /\ head_is_best (findArbitrage c m t)
     = negb (returned "USDC" (findArbitrage c m t)
             && returned "WETH" (findArbitrage c m t)).
Proof.
  assert (E : findArbitrage c m t
              = filter (passes m t) (mockOpportunities (gasCostOf c)))
    by apply select_filter.
  split; [exact E|].
  rewrite E. clear E. generalize (passes m t). intro p.
  gas_cases c g;
    unfold mockOpportunities; cbn [filter];
    repeat match goal with
           | |- context [if p ?u then _ else _] => destruct (p u)
           end;
    split; vm_compute; reflexivity.
Qed.

(** C2 fails as stated: on Base with no threshold all three entries are
    returned, and the head (USDC) has a smaller net profit than the second
    entry (WETH). *)
Lemma returned_list_not_sorted :
  non_increasing_net (findArbitrage 8453 0 None) = false
  /\ head_is_best (findArbitrage 8453 0 None) = false
  /\ exists a b rest,
       findArbitrage 8453 0 None = a :: b :: rest
       /\ PrimFloat.ltb (net_profit_usd a) (net_profit_usd b) = true.
Proof.
  split; [vm_compute; reflexivity|].
  split; [vm_compute; reflexivity|].
  do 3 eexists. split; vm_compute; reflexivity.
Qed.

(** ** The two filters (C9) *)

(** C9: every returned opportunity has [profit_percentage >= min_profit_pct]
    and, when a non-empty address list is supplied, an address equal up to
    case to one of the list; over any candidate list, an entry without an
    address does not survive a non-empty address list. *)
Theorem filters_sound :
  (forall c m t opp,
      In opp (findArbitrage c m t) ->
      ge (profit_percentage opp) m = true
      /\ (forall addrs,
             t = Some addrs -> addrs <> [] ->
             exists a addr,
               token_address opp = Some a /\ In addr addrs
               /\ toLowerCase a = toLowerCase addr))
  /\ (forall candidates m addrs opp,
         addrs <> [] -> token_address opp = None ->
         ~ In opp (select candidates m (Some addrs))).
Proof.
  split.
  - intros c m t opp H. apply findArbitrage_In in H. destruct H as [_ H].
    unfold passes in H. apply andb_true_iff in H. destruct H as [Hm Ht].
    split; [exact Hm|].
    intros addrs -> Hne. destruct addrs as [|a addrs]; [congruence|].
    now apply address_listed_match.
  - intros candidates m addrs opp Hne Hnone H.
    apply select_In in H. destruct H as [_ H].
    unfold passes in H. apply andb_true_iff in H. destruct H as [_ Ht].
    destruct addrs as [|a addrs]; [congruence|].
    apply address_listed_match in Ht. destruct Ht as (x & _ & Hx & _).
    congruence.
Qed.

Lemma filters_sound_witness :
  (exists opp,
      In opp (findArbitrage 8453 0.3 (Some [toLowerCase usdc_address]))
      /\ ge (profit_percentage opp) 0.3 = true
      /\ exists a addr,
           token_address opp = Some a
           /\ In addr [toLowerCase usdc_address]
           /\ toLowerCase a = toLowerCase addr)
  /\ ~ In (mkOpp "DAI" None "Curve" "Balancer" 1 1.01 1 10 0.01 9.99 true)
         (select
            [mkOpp "DAI" None "Curve" "Balancer" 1 1.01 1 10 0.01 9.99 true]
            0.3 (Some [usdc_address])).
Proof.
  split.
  - eexists. split; [first_entry|].
    assert (Hin : In (mkOpp "USDC" (Some usdc_address) "Uniswap V3" "SushiSwap"
                        0.998 1.002 0.4 4.0 0.01 (4.0 - 0.01)
                        (gt (4.0 - 0.01) 0))
                    (findArbitrage 8453 0.3 (Some [toLowerCase usdc_address])))
      by first_entry.
    destruct (proj1 filters_sound _ _ _ _ Hin) as [Hm Ha].
    split; [vm_compute; reflexivity|].
    apply (Ha [toLowerCase usdc_address]); [reflexivity | discriminate].
  - apply (proj2 filters_sound); [discriminate | reflexivity].
Defined.

(** ** Gas cost resolution (C10) *)

(** C10: [findArbitrage] is a total function of the chain id; a chain id
    that is not a key of [CHAIN_GAS_COSTS] resolves to the gas cost 2.5, and
    every opportunity of a response carries the gas cost resolved for the
    requested chain, hence the same value. *)
Theorem gas_cost_resolution :
  (forall c, configured c = false -> gasCostOf c = 2.5)
  /\ (forall c m t opp,
         In opp (findArbitrage c m t) -> gas_cost_usd opp = gasCostOf c)
  /\ (forall c m t o1 o2,
         In o1 (findArbitrage c m t) -> In o2 (findArbitrage c m t) ->
         gas_cost_usd o1 = gas_cost_usd o2).
Proof.
  assert (G : forall c m t opp,
             In opp (findArbitrage c m t) -> gas_cost_usd opp = gasCostOf c).
  { intros c m t opp H. apply findArbitrage_In in H. destruct H as [H _].
    set (g := gasCostOf c) in *. clearbody g.
    unfold mockOpportunities in H. simpl In in H.
    destruct H as [<- | [<- | [<- | []]]]; reflexivity. }
  split; [exact gasCostOf_unconfigured|].
  split; [exact G|].
  intros c m t o1 o2 H1 H2.
  rewrite (G _ _ _ _ H1), (G _ _ _ _ H2). reflexivity.
Qed.

Lemma gas_cost_resolution_witness :
  gasCostOf 43114 = 2.5
  /\ exists opp,
       In opp (findArbitrage 43114 0 None) /\ gas_cost_usd opp = gasCostOf 43114.
Proof.
  split.
  - apply (proj1 gas_cost_resolution). vm_compute. reflexivity.
  - eexists. split; [first_entry|].
    apply (proj1 (proj2 gas_cost_resolution) 43114 0 None). first_entry.
Defined.

(** ** Validation and the entry points (C4, C5, C6, C7) *)

Lemma get_skips (k key : string) (v : json) (pre post : list (string * json)) :
  String.eqb k key = false ->
  get (pre ++ (k, v) :: post) key = get (pre ++ post) key.
Proof.
  intro Hk. induction pre as [|[k' v'] pre IH]; simpl.
  - now rewrite Hk.
  - destruct (String.eqb k' key); [reflexivity | exact IH].
Qed.

Lemma parse_skips_amount_in (v : json) (pre post : list (string * json)) :
  ArbitrageInputSchema_parse (JObj (pre ++ ("amount_in", v) :: post))
  = ArbitrageInputSchema_parse (JObj (pre ++ post)).
Proof.
  unfold ArbitrageInputSchema_parse.
  rewrite !get_skips by reflexivity. reflexivity.
Qed.



(** C5, as the code has it: [amount_in] is not a key of the schema and
    validation does not read it. Adding an [amount_in] property of any
    value to a body changes neither the outcome of validation nor the
    answer of either entry point; and a body that fails validation gets an
    error and no report. *)
Theorem validation_ignores_amount_in
  (env : Env) (key : option string) (v : json) (pre post : list (string * json)) :
  ArbitrageInputSchema_parse (JObj (pre ++ ("amount_in", v) :: post))
  = ArbitrageInputSchema_parse (JObj (pre ++ post))
  /\ entrypoint env (JObj (pre ++ ("amount_in", v) :: post))
     = entrypoint env (JObj (pre ++ post))
  /\ internal_api env (mkRequest key (Some (JObj (pre ++ ("amount_in", v) :: post))))
     = internal_api env (mkRequest key (Some (JObj (pre ++ post))))
  /\ (forall b iss,
         ArbitrageInputSchema_parse b = inl iss ->
         entrypoint env b = inl iss
         /\ report_of (internal_api env (mkRequest key (Some b))) = None).
Proof.
  pose proof (parse_skips_amount_in v pre post) as E.
  split; [exact E|]. split; [|split].
  - unfold entrypoint. now rewrite E.
  - unfold internal_api. cbn [body api_key_header]. now rewrite E.
  - intros b iss Hp. split.
    + unfold entrypoint. now rewrite Hp.
    + unfold internal_api. cbn [body api_key_header]. rewrite Hp.
      destruct (negb (truthy_str (INTERNAL_API_KEY env))); [reflexivity|].
      destruct (strict_neq key (INTERNAL_API_KEY env)); reflexivity.
Qed.

Lemma validation_ignores_amount_in_witness :
  entrypoint env0 spec_shaped_body
  = inl [Some "chain_id"; Some "min_profit_pct"]
  /\ report_of (internal_api env0 (mkRequest (Some "k3y") (Some spec_shaped_body)))
     = None.
Proof.
  apply (proj2 (proj2 (proj2
           (validation_ignores_amount_in env0 (Some "k3y") JNull [] [])))).
  vm_compute. reflexivity.
Defined.

(** C5 fails as stated: a body with [amount_in = 0] and a valid [chain_id]
    and [min_profit_pct] passes validation and is answered with status 200
    and the three candidates. *)
Lemma zero_amount_is_accepted :
  ArbitrageInputSchema_parse zero_amount_body = inr (mkInput 8453 0.1 None)
  /\ status (internal_api env0 (authorised zero_amount_body)) = 200%Z
  /\ option_map total_found
       (report_of (internal_api env0 (authorised zero_amount_body)))
     = Some 3%nat.
Proof.
  repeat split; vm_compute; reflexivity.
Qed.




(** C7: the opportunities of a report, their order and their count are a
    function of [chain_id], [min_profit_pct] and [token_addresses] alone.
    Two runs on the same input give the same list whatever the clock reads,
    on the handler and on the internal route (under the same configured
    key); with the clock frozen too, the two reports are identical. *)
Theorem report_is_reproducible :
  (forall env1 env2 input,
      opportunities (handler env1 input) = opportunities (handler env2 input)
      /\ total_found (handler env1 input) = total_found (handler env2 input))
  /\ (forall env1 env2 req,
         INTERNAL_API_KEY env1 = INTERNAL_API_KEY env2 ->
         status (internal_api env1 req) = status (internal_api env2 req)
         /\ option_map opportunities (report_of (internal_api env1 req))
            = option_map opportunities (report_of (internal_api env2 req))
         /\ option_map total_found (report_of (internal_api env1 req))
            = option_map total_found (report_of (internal_api env2 req)))
  /\ (forall env1 env2 input,
         now_iso env1 = now_iso env2 ->
         handler env1 input = handler env2 input).
Proof.
  split; [|split].
  - intros env1 env2 input. split; reflexivity.
  - intros env1 env2 req Hk. unfold internal_api. rewrite Hk.
    destruct (negb (truthy_str (INTERNAL_API_KEY env2))); [repeat split|].
    destruct (strict_neq (api_key_header req) (INTERNAL_API_KEY env2));
      [repeat split|].
    destruct (body req) as [b|]; [|repeat split].
    destruct (ArbitrageInputSchema_parse b); repeat split.
  - intros env1 env2 input Hn. unfold handler. now rewrite Hn.
Qed.

Lemma report_is_reproducible_witness :
  option_map opportunities
    (report_of (internal_api env0 (authorised zero_amount_body)))
  = option_map opportunities
      (report_of
         (internal_api (mkEnv "2026-01-01T00:00:00.000Z" (Some "k3y"))
            (authorised zero_amount_body)))
  /\ handler env0 (mkInput 1 0 None)
     = handler (mkEnv "2025-10-31T12:00:00.000Z" None) (mkInput 1 0 None).
Proof.
  split.
  - apply (proj1 (proj2 report_is_reproducible) env0
             (mkEnv "2026-01-01T00:00:00.000Z" (Some "k3y"))
             (authorised zero_amount_body)).
    reflexivity.
  - apply (proj2 (proj2 report_is_reproducible)). reflexivity.
Defined.

(** * Further properties of the service *)

Import Checks.

(** ** Comparison of numbers *)

(** [<=] on binary64 values is transitive (NaN is below and above
    nothing). *)
Lemma SFleb_trans (x y z : spec_float) :
  SFleb x y = true -> SFleb y z = true -> SFleb x z = true.
Proof.
  unfold SFleb, SFcompare.
  destruct x as [sx|sx| |sx mx ex], y as [sy|sy| |sy my ey],
           z as [sz|sz| |sz mz ez];
    try discriminate; try reflexivity;
    repeat match goal with s : bool |- _ => destruct s end;
    try discriminate; try reflexivity;
    rewrite <- ?Pos.compare_cont_spec; unfold Pos.switch_Eq;
    fold (Pos.compare mx my) (Pos.compare my mz) (Pos.compare mx mz);
    destruct (Z.compare_spec ex ey), (Z.compare_spec ey ez),
             (Z.compare_spec ex ez);
    try discriminate; try reflexivity; try lia;
    destruct (Pos.compare_spec mx my), (Pos.compare_spec my mz),
             (Pos.compare_spec mx mz);
    simpl; try discriminate; try reflexivity; try lia.
Qed.

Lemma ge_trans (x y z : number) :
  ge x y = true -> ge y z = true -> ge x z = true.
Proof.
  unfold ge. rewrite !leb_spec. intros Hxy Hyz.
  exact (SFleb_trans _ _ _ Hyz Hxy).
Qed.

(** ** The threshold filter *)

Lemma meets_min_profit_lower (m1 m2 : number) (o : ArbitrageOpportunity) :
  ge m2 m1 = true ->
  meets_min_profit m2 o = true -> meets_min_profit m1 o = true.
Proof.
  unfold meets_min_profit. intros H12 H2. exact (ge_trans _ _ _ H2 H12).
Qed.

(** X1: raising the threshold only removes opportunities. When
    [m2 >= m1], the result for [m2] is the result for [m1] filtered once
    more by the higher threshold, so it is contained in it and is not
    longer. *)
Theorem raising_threshold_only_removes
  (c m1 m2 : number) (t : option (list string)) :
  ge m2 m1 = true ->
  findArbitrage c m2 t
  = filter (meets_min_profit m2) (findArbitrage c m1 t)
  /\ incl (findArbitrage c m2 t) (findArbitrage c m1 t)
  /\ Nat.le (List.length (findArbitrage c m2 t))
       (List.length (findArbitrage c m1 t)).
Proof.
  intro H12.
  assert (E : findArbitrage c m2 t
              = filter (meets_min_profit m2) (findArbitrage c m1 t)).
  { unfold findArbitrage. rewrite !select_filter, filter_filter.
    apply filter_ext. intro o. unfold passes.
    destruct (meets_min_profit m2 o) eqn:E2.
    - rewrite (meets_min_profit_lower m1 m2 o H12 E2).
      now rewrite andb_true_r.
    - now rewrite andb_false_r. }
  split; [exact E|]. rewrite E. split.
  - apply incl_filter.
  - apply filter_length_le.
Qed.

Lemma raising_threshold_only_removes_witness :
  findArbitrage 8453 0.45 None
  = filter (meets_min_profit 0.45) (findArbitrage 8453 0.3 None)
  /\ incl (findArbitrage 8453 0.45 None) (findArbitrage 8453 0.3 None)
  /\ Nat.le (List.length (findArbitrage 8453 0.45 None))
       (List.length (findArbitrage 8453 0.3 None)).
Proof.
  apply (raising_threshold_only_removes 8453 0.3 0.45 None).
  vm_compute. reflexivity.
Defined.

(** X2: without an address list the threshold alone decides what is
    returned, whatever the chain: all three entries up to 0.2, USDC and
    WETH up to 0.4, WETH alone up to 0.49, nothing above (nor for a NaN
    threshold). *)
Theorem threshold_bands (c m : number) :
  map token_symbol (findArbitrage c m None)
  = if ge 0.2 m then ["USDC"; "WETH"; "USDT"]
    else if ge 0.4 m then ["USDC"; "WETH"]
    else if ge 0.49 m then ["WETH"]
    else [].
Proof.
  assert (H24 : ge 0.2 m = true -> ge 0.4 m = true)
    by (apply ge_trans; vm_compute; reflexivity).
  assert (H49 : ge 0.4 m = true -> ge 0.49 m = true)
    by (apply ge_trans; vm_compute; reflexivity).
  unfold findArbitrage, select, mockOpportunities, meets_min_profit.
  cbn [filter profit_percentage].
  destruct (ge 0.2 m) eqn:E2; destruct (ge 0.4 m) eqn:E4;
    destruct (ge 0.49 m) eqn:E9;
    try (specialize (H24 eq_refl)); try (specialize (H49 eq_refl));
    try discriminate; reflexivity.
Qed.

(** ** The address filter *)

Lemma lower_ascii_idempotent (c : ascii) :
  lower_ascii (lower_ascii c) = lower_ascii c.
Proof.
  destruct c as [[] [] [] [] [] [] [] []]; vm_compute; reflexivity.
Qed.

Lemma toLowerCase_idempotent (s : string) :
  toLowerCase (toLowerCase s) = toLowerCase s.
Proof.
  induction s as [|c s IH]; simpl; [reflexivity|].
  now rewrite lower_ascii_idempotent, IH.
Qed.

Lemma address_listed_iff (addrs : list string) (o : ArbitrageOpportunity) :
  address_listed addrs o = true <->
  exists a, token_address o = Some a
            /\ In (toLowerCase a) (map toLowerCase addrs).
Proof.
  split.
  - intro H. apply address_listed_match in H.
    destruct H as (a & addr & Ha & Hin & Heq).
    exists a. split; [exact Ha|]. rewrite Heq. now apply in_map.
  - intros (a & Ha & Hin). apply in_map_iff in Hin.
    destruct Hin as (addr & Heq & Hin).
    unfold address_listed. apply existsb_exists. exists addr.
    split; [exact Hin|]. rewrite Ha. now apply String.eqb_eq.
Qed.

Lemma address_listed_ext (addrs1 addrs2 : list string) (o : ArbitrageOpportunity) :
  (forall a, In a (map toLowerCase addrs1) <-> In a (map toLowerCase addrs2)) ->
  address_listed addrs1 o = address_listed addrs2 o.
Proof.
  intro H. apply eq_true_iff_eq. rewrite !address_listed_iff.
  split; intros (a & Ha & Hin); exists a; (split; [exact Ha|]);
    now apply H.
Qed.

(** X3: the address filter reads the supplied list as a set of addresses
    up to letter case. An empty list filters nothing; two lists whose
    lower-cased members are the same (whatever their order, repetitions and
    case) give the same result; in particular a list and its lower-cased
    copy do. *)
Theorem address_list_is_a_set_up_to_case :
  (forall c m, findArbitrage c m (Some []) = findArbitrage c m None)
  /\ (forall c m addrs1 addrs2,
         (forall a, In a (map toLowerCase addrs1)
                    <-> In a (map toLowerCase addrs2)) ->
         findArbitrage c m (Some addrs1) = findArbitrage c m (Some addrs2))
  /\ (forall c m addrs,
         findArbitrage c m (Some (map toLowerCase addrs))
         = findArbitrage c m (Some addrs)).
Proof.
  assert (S : forall c m addrs1 addrs2,
             (forall a, In a (map toLowerCase addrs1)
                        <-> In a (map toLowerCase addrs2)) ->
             findArbitrage c m (Some addrs1) = findArbitrage c m (Some addrs2)).
  { intros c m addrs1 addrs2 H. unfold findArbitrage.
    rewrite !select_filter. apply filter_ext. intro o. unfold passes.
    f_equal.
    destruct addrs1 as [|a1 l1], addrs2 as [|a2 l2].
    - reflexivity.
    - exfalso. apply (proj2 (H (toLowerCase a2))). now left.
    - exfalso. apply (proj1 (H (toLowerCase a1))). now left.
    - now apply address_listed_ext. }
  split; [reflexivity|]. split; [exact S|].
  intros c m addrs. apply S. intro a.
  rewrite map_map.
  rewrite (map_ext _ toLowerCase toLowerCase_idempotent). reflexivity.
Qed.

Lemma address_list_is_a_set_up_to_case_witness :
  findArbitrage 8453 0
    (Some [usdc_address; "0xDEAD"; usdc_address])
  = findArbitrage 8453 0 (Some ["0xdead"; toLowerCase usdc_address]).
Proof.
  apply (proj1 (proj2 address_list_is_a_set_up_to_case)).
  intro a. vm_compute. tauto.
Defined.

(** ** Composition of the filters *)

(** X4: filtering is idempotent and the two filters compose in either
    order, over any candidate list: selecting again from a result with the
    same threshold and addresses returns it unchanged, the result with an
    address list is the threshold-only result filtered by the list, and
    nothing is returned that was not a candidate. *)
Theorem selecting_twice_changes_nothing
  (candidates : list ArbitrageOpportunity) (m : number)
  (t : option (list string)) :
  select (select candidates m t) m t = select candidates m t
  /\ select (select candidates m None) m t = select candidates m t
  /\ select (select candidates m t) m None = select candidates m t
  /\ incl (select candidates m t) candidates.
Proof.
  rewrite !select_filter, !filter_filter. repeat split.
  - apply filter_ext. intro o. now destruct (passes m t o).
  - apply filter_ext. intro o. unfold passes.
    destruct (meets_min_profit m o); reflexivity.
  - apply filter_ext. intro o. unfold passes.
    destruct (meets_min_profit m o); simpl; [|reflexivity].
    now rewrite andb_true_r.
  - apply incl_filter.
Qed.

(** ** Figures of the returned opportunities *)

(** X5: an opportunity is marked executable exactly when its net profit is
    positive, which is exactly when its gross profit on 1000 USD exceeds
    the gas cost of the requested chain. *)
Theorem executable_iff_gross_exceeds_gas
  (c m : number) (t : option (list string)) (opp : ArbitrageOpportunity) :
  In opp (findArbitrage c m t) ->
  executable opp = gt (net_profit_usd opp) 0
  /\ executable opp = gt (profit_usd_per_1k opp) (gas_cost_usd opp).
Proof.
  intro H. apply findArbitrage_In in H. destruct H as [H _].
  gas_cases c g;
    unfold mockOpportunities in H; simpl In in H;
    destruct H as [<- | [<- | [<- | []]]]; split; vm_compute; reflexivity.
Qed.

Lemma executable_iff_gross_exceeds_gas_witness :
  exists opp,
    In opp (findArbitrage 43114 0.1 None)
    /\ (executable opp = gt (net_profit_usd opp) 0
        /\ executable opp = gt (profit_usd_per_1k opp) (gas_cost_usd opp)).
Proof.
  eexists. split.
  - first_entry.
  - apply (executable_iff_gross_exceeds_gas 43114 0.1 None). first_entry.
Defined.

(** X6: whatever number is given as chain id (a fraction, a negative
    number, an infinity or NaN included), the resolved gas cost lies
    between 0.01 and 5 USD, and every returned net profit lies between -3
    and 4.9 USD. *)
Theorem gas_and_net_profit_bounds :
  (forall c, ge (gasCostOf c) 0.01 && ge 5 (gasCostOf c) = true)
  /\ (forall c m t opp,
         In opp (findArbitrage c m t) ->
         ge (net_profit_usd opp) (-3) && ge 4.9 (net_profit_usd opp) = true).
Proof.
  split.
  - intro c. gas_cases c g; vm_compute; reflexivity.
  - intros c m t opp H. apply findArbitrage_In in H. destruct H as [H _].
    gas_cases c g;
      unfold mockOpportunities in H; simpl In in H;
      destruct H as [<- | [<- | [<- | []]]]; vm_compute; reflexivity.
Qed.

Lemma gas_and_net_profit_bounds_witness :
  exists opp,
    In opp (findArbitrage nan 0 None)
    /\ ge (net_profit_usd opp) (-3) && ge 4.9 (net_profit_usd opp) = true.
Proof.
  eexists. split.
  - first_entry.
  - apply (proj2 gas_and_net_profit_bounds nan 0 None). first_entry.
Defined.

(** X7: every report the handler builds passes [ArbitrageOutputSchema]:
    no number field of a returned opportunity is NaN; all of them are
    finite. *)
Theorem handler_output_conforms (env : Env) (input : ArbitrageInput) :
  ArbitrageOutputSchema_accepts (handler env input) = true
  /\ forallb (fun o => forallb PrimFloat.is_finite (numbers_of o))
       (opportunities (handler env input)) = true.
Proof.
  unfold ArbitrageOutputSchema_accepts, handler. cbn [opportunities].
  destruct input as [c m t]. cbn [chain_id min_profit_pct token_addresses].
  split; apply forallb_forall; intros opp H;
    apply findArbitrage_In in H; destruct H as [H _];
    gas_cases c g;
      unfold mockOpportunities in H; simpl In in H;
      destruct H as [<- | [<- | [<- | []]]]; vm_compute; reflexivity.
Qed.

(** X8: the count of a report is the length of its list, never above
    three, and no candidate is reported twice: the symbols of the returned
    opportunities are pairwise distinct. *)
Theorem report_counts (env : Env) (input : ArbitrageInput) :
  total_found (handler env input)
  = List.length (opportunities (handler env input))
  /\ Nat.le (total_found (handler env input)) 3
  /\ NoDup (map token_symbol (opportunities (handler env input))).
Proof.
  unfold handler. cbn [total_found opportunities].
  unfold findArbitrage. rewrite select_filter.
  set (l := mockOpportunities _). set (p := passes _ _).
  split; [reflexivity|]. split.
  - apply (Nat.le_trans _ (List.length l)); [apply filter_length_le|].
    apply Nat.le_refl.
  - assert (N : NoDup (map token_symbol l)).
    { subst l. cbn [mockOpportunities map token_symbol].
      repeat constructor; simpl; intuition discriminate. }
    clearbody l. clear -N.
    induction l as [|o l IH]; simpl; [constructor|].
    inversion N as [|x xs Hx Hxs]; subst.
    destruct (p o); simpl; [|now apply IH].
    constructor; [|now apply IH].
    intro Hin. apply Hx. apply in_map_iff in Hin.
    destruct Hin as (o' & Ho' & Hin). apply in_map_iff.
    exists o'. split; [exact Ho'|]. apply filter_In in Hin. tauto.
Qed.

(** X9: a configured chain resolves to its own entry of the table: no
    entry is replaced by the fallback. *)
Theorem configured_chain_gets_its_entry (c : number) :
  configured c = true ->
  exists k, In (k, gasCostOf c) CHAIN_GAS_COSTS /\ PrimFloat.eqb c k = true.
Proof.
  unfold configured, gasCostOf, CHAIN_GAS_COSTS, existsb, index_by_number, fst.
  repeat match goal with
         | |- context [PrimFloat.eqb c ?k] =>
             let E := fresh "E" in destruct (PrimFloat.eqb c k) eqn:E
         end;
    simpl orb; intro H; try discriminate H;
    match goal with
    | E : PrimFloat.eqb c ?k = true |- _ =>
        exists k; split; [vm_compute; tauto | exact E]
    end.
Qed.

Lemma configured_chain_gets_its_entry_witness :
  exists k, In (k, gasCostOf 42161) CHAIN_GAS_COSTS
            /\ PrimFloat.eqb 42161 k = true.
Proof.
  apply (configured_chain_gets_its_entry 42161). vm_compute. reflexivity.
Defined.

(** ** Validation *)

Lemma z_number_some (v : option json) (x : number) :
  z_number v = Some x -> v = Some (JNum x) /\ PrimFloat.is_nan x = false.
Proof.
  destruct v as [[| | y | | |]|]; simpl; try discriminate.
  destruct (PrimFloat.is_finite y) eqn:E; [|discriminate].
  intro H. injection H as <-. split; [reflexivity|].
  unfold PrimFloat.is_finite in E.
  destruct (PrimFloat.is_nan y); [discriminate E | reflexivity].
Qed.

Lemma parse_object (fields : list (string * json)) :
  ArbitrageInputSchema_parse (JObj fields)
  = match z_number (get fields "chain_id"),
          z_number (get fields "min_profit_pct"),
          z_optional_strings (get fields "token_addresses") with
    | Some c, Some m, Some t => inr (mkInput c m t)
    | c, m, t =>
        inl (issue_if "chain_id" c ++ issue_if "min_profit_pct" m
             ++ issue_if "token_addresses" t)
    end.
Proof.
  unfold ArbitrageInputSchema_parse.
  destruct (z_number (get fields "chain_id")),
           (z_number (get fields "min_profit_pct")),
           (z_optional_strings (get fields "token_addresses")); reflexivity.
Qed.

(** X10: a validated input is well formed. When validation succeeds, the
    body is an object whose [chain_id] and [min_profit_pct] are the numbers
    handed on, neither of them NaN, and the address list is absent exactly
    when the key is. *)
Theorem validated_input_is_well_formed (v : json) (input : ArbitrageInput) :
  ArbitrageInputSchema_parse v = inr input ->
  PrimFloat.is_nan (chain_id input) = false
  /\ PrimFloat.is_nan (min_profit_pct input) = false
  /\ exists fields,
       v = JObj fields
       /\ get fields "chain_id" = Some (JNum (chain_id input))
       /\ get fields "min_profit_pct" = Some (JNum (min_profit_pct input))
       /\ (token_addresses input = None
           <-> get fields "token_addresses" = None).
Proof.
  destruct v as [| | | | |fields]; try discriminate.
  rewrite parse_object.
  destruct (z_number (get fields "chain_id")) as [c|] eqn:Ec;
    destruct (z_number (get fields "min_profit_pct")) as [m|] eqn:Em;
    destruct (z_optional_strings (get fields "token_addresses")) as [t|] eqn:Et;
    try discriminate.
  intro H. injection H as <-. cbn [chain_id min_profit_pct token_addresses].
  apply z_number_some in Ec, Em. destruct Ec as [Ec Nc], Em as [Em Nm].
  repeat split; trivial. exists fields. repeat split; trivial.
  - intros ->. destruct (get fields "token_addresses") as [[| | | |items|]|];
      simpl in Et; try discriminate; [|reflexivity].
    destruct (z_strings items); discriminate.
  - intro E. rewrite E in Et. simpl in Et. congruence.
Qed.

Lemma validated_input_is_well_formed_witness :
  PrimFloat.is_nan (chain_id (mkInput 8453 0.1 None)) = false
  /\ PrimFloat.is_nan (min_profit_pct (mkInput 8453 0.1 None)) = false
  /\ exists fields,
       zero_amount_body = JObj fields
       /\ get fields "chain_id" = Some (JNum (chain_id (mkInput 8453 0.1 None)))
       /\ get fields "min_profit_pct"
          = Some (JNum (min_profit_pct (mkInput 8453 0.1 None)))
       /\ (token_addresses (mkInput 8453 0.1 None) = None
           <-> get fields "token_addresses" = None).
Proof.
  apply (validated_input_is_well_formed zero_amount_body (mkInput 8453 0.1 None)).
  vm_compute. reflexivity.
Defined.

(** X11: a refused body is told everything that is wrong with it. A body
    that is not an object is refused with the single root issue; an object
    is refused with a non-empty list that has no root issue and names a
    schema key exactly when that key fails its own check, all failing keys
    at once. *)
Theorem refusal_names_every_failing_key :
  (forall v,
      (forall fields, v <> JObj fields) ->
      ArbitrageInputSchema_parse v = inl [None])
  /\ (forall fields iss,
         ArbitrageInputSchema_parse (JObj fields) = inl iss ->
         iss <> []
         /\ ~ In None iss
         /\ (In (Some "chain_id") iss
             <-> z_number (get fields "chain_id") = None)
         /\ (In (Some "min_profit_pct") iss
             <-> z_number (get fields "min_profit_pct") = None)
         /\ (In (Some "token_addresses") iss
             <-> z_optional_strings (get fields "token_addresses") = None)).
Proof.
  split.
  - intros v H. destruct v; try reflexivity. now destruct (H fields).
  - intros fields iss. rewrite parse_object.
    destruct (z_number (get fields "chain_id")) as [c|];
      destruct (z_number (get fields "min_profit_pct")) as [m|];
      destruct (z_optional_strings (get fields "token_addresses")) as [t|];
      intro H; try discriminate H; injection H as <-; simpl;
      repeat split; try discriminate; try tauto;
      intros; intuition discriminate.
Qed.

Lemma refusal_names_every_failing_key_witness :
  ArbitrageInputSchema_parse (JArr []) = inl [None]
  /\ [Some "chain_id"; Some "token_addresses"] <> []
  /\ ~ In None [Some "chain_id"; Some "token_addresses"].
Proof.
  split.
  - apply (proj1 refusal_names_every_failing_key). discriminate.
  - pose proof (proj2 refusal_names_every_failing_key
                  [("min_profit_pct", JNum 1); ("token_addresses", JNull)]
                  [Some "chain_id"; Some "token_addresses"] eq_refl) as H.
    split; apply H.
Defined.

Lemma z_strings_map (l : list string) : z_strings (map JStr l) = Some l.
Proof.
  induction l as [|s l IH]; simpl; [reflexivity|]. now rewrite IH.
Qed.

Lemma z_strings_some (items : list json) (l : list string) :
  z_strings items = Some l -> items = map JStr l.
Proof.
  revert l. induction items as [|v items IH]; simpl; intros l H.
  - now injection H as <-.
  - destruct v; simpl in H; try discriminate.
    destruct (z_strings items) as [ss|]; [|discriminate].
    injection H as <-. simpl. now rewrite (IH ss eq_refl).
Qed.

(** X12: validation and JSON rendering are inverse on well-formed input.
    An array validates as an address list exactly when it is made of
    strings only, and it gives back those strings in order; a body made of
    a finite [chain_id], a finite [min_profit_pct] and a list of strings
    validates to exactly these three values, an empty list included. *)
Theorem validation_round_trip :
  (forall items l, z_strings items = Some l <-> items = map JStr l)
  /\ (forall c m l,
         PrimFloat.is_finite c = true -> PrimFloat.is_finite m = true ->
         ArbitrageInputSchema_parse
           (JObj [ ("chain_id", JNum c); ("min_profit_pct", JNum m);
                   ("token_addresses", JArr (map JStr l)) ])
         = inr (mkInput c m (Some l))
         /\ ArbitrageInputSchema_parse
              (JObj [ ("chain_id", JNum c); ("min_profit_pct", JNum m) ])
            = inr (mkInput c m None)).
Proof.
  split.
  - intros items l. split; [apply z_strings_some|].
    intros ->. apply z_strings_map.
  - intros c m l Hc Hm. unfold ArbitrageInputSchema_parse. simpl.
    rewrite Hc, Hm, z_strings_map. split; reflexivity.
Qed.

Lemma validation_round_trip_witness :
  ArbitrageInputSchema_parse
    (JObj [ ("chain_id", JNum 137); ("min_profit_pct", JNum 0.25);
            ("token_addresses", JArr (map JStr [usdc_address])) ])
  = inr (mkInput 137 0.25 (Some [usdc_address]))
  /\ ArbitrageInputSchema_parse
       (JObj [ ("chain_id", JNum 137); ("min_profit_pct", JNum 0.25) ])
     = inr (mkInput 137 0.25 None).
Proof.
  apply (proj2 validation_round_trip 137 0.25 [usdc_address]);
    vm_compute; reflexivity.
Defined.

Lemma get_permutation (fields1 fields2 : list (string * json)) (key : string) :
  NoDup (map fst fields1) -> Permutation fields1 fields2 ->
  get fields1 key = get fields2 key.
Proof.
  intros N P. induction P as [|[k v] l l' P IH|[k1 v1] [k2 v2] l|l l' l'' P1 IH1 P2 IH2].
  - reflexivity.
  - simpl. inversion N; subst. now rewrite IH.
  - simpl. destruct (String.eqb k1 key) eqn:E1, (String.eqb k2 key) eqn:E2;
      try reflexivity.
    apply String.eqb_eq in E1, E2. subst.
    simpl in N. inversion N as [|x xs Hx _]; subst. simpl in Hx. tauto.
  - rewrite IH1 by exact N. apply IH2.
    apply (Permutation_NoDup (Permutation_map fst P1) N).
Qed.

(** X13: validation reads the three keys of the schema and nothing else.
    A property under any other key can be put anywhere in the body without
    changing the outcome, and the order in which distinct keys come does
    not matter. *)
Theorem validation_reads_schema_keys_only :
  (forall k v pre post,
      ~ In k schema_keys ->
      ArbitrageInputSchema_parse (JObj (pre ++ (k, v) :: post))
      = ArbitrageInputSchema_parse (JObj (pre ++ post)))
  /\ (forall fields1 fields2,
         NoDup (map fst fields1) -> Permutation fields1 fields2 ->
         ArbitrageInputSchema_parse (JObj fields1)
         = ArbitrageInputSchema_parse (JObj fields2)).
Proof.
  split.
  - intros k v pre post Hk. unfold ArbitrageInputSchema_parse.
    rewrite !get_skips; [reflexivity| | |];
      apply String.eqb_neq; intros ->; apply Hk; simpl; tauto.
  - intros fields1 fields2 N P. unfold ArbitrageInputSchema_parse.
    now rewrite !(get_permutation fields1 fields2 _ N P).
Qed.

Lemma validation_reads_schema_keys_only_witness :
  ArbitrageInputSchema_parse
    (JObj ([("chain_id", JNum 1)]
           ++ ("slippage", JNum 0.5) :: [("min_profit_pct", JNum 0.3)]))
  = ArbitrageInputSchema_parse
      (JObj ([("chain_id", JNum 1)] ++ [("min_profit_pct", JNum 0.3)]))
  /\ ArbitrageInputSchema_parse
       (JObj [("chain_id", JNum 1); ("min_profit_pct", JNum 0.3)])
     = ArbitrageInputSchema_parse
         (JObj [("min_profit_pct", JNum 0.3); ("chain_id", JNum 1)]).
Proof.
  split.
  - apply (proj1 validation_reads_schema_keys_only).
    simpl. intuition discriminate.
  - apply (proj2 validation_reads_schema_keys_only).
    + repeat constructor; simpl; intuition discriminate.
    + apply perm_swap.
Defined.

(** ** The internal route *)

(** X14: the outcomes of the internal route. The status is 200, 401 or
    500; it is 200 exactly when the key is configured, the header equals
    it and the body is JSON that passes the schema; it is 401 exactly when
    the key is configured and the header differs; and a report is carried
    exactly with status 200. *)
Theorem internal_route_outcomes (env : Env) (req : Request) :
  let r := internal_api env req in
  (status r = 200 \/ status r = 401 \/ status r = 500)%Z
  /\ Z.eqb (status r) 200 = key_accepted env req && body_accepted req
  /\ Z.eqb (status r) 401
     = truthy_str (INTERNAL_API_KEY env)
       && strict_neq (api_key_header req) (INTERNAL_API_KEY env)
  /\ match report_of r with Some _ => true | None => false end
     = key_accepted env req && body_accepted req.
Proof.
  unfold internal_api, key_accepted, body_accepted.
  destruct (truthy_str (INTERNAL_API_KEY env));
    destruct (strict_neq (api_key_header req) (INTERNAL_API_KEY env));
    simpl; try (repeat split; tauto).
  destruct (body req) as [b|]; simpl; [|repeat split; tauto].
  destruct (ArbitrageInputSchema_parse b); simpl; repeat split; tauto.
Qed.

(** X15: a request that fails the key check is answered without its body
    being looked at. Two requests with the same header get the same
    answer, which carries no report, whatever their bodies are; and when no
    key is configured no header is accepted, not even an empty one. *)
Theorem body_is_not_read_before_the_key_check :
  (forall env req1 req2,
      api_key_header req1 = api_key_header req2 ->
      key_accepted env req1 = false ->
      internal_api env req1 = internal_api env req2
      /\ report_of (internal_api env req1) = None)
  /\ (forall env req,
         truthy_str (INTERNAL_API_KEY env) = false ->
         internal_api env req
         = mkResponse 500 (ErrorText "Server configuration error")).
Proof.
  split.
  - intros env req1 req2 Hh. unfold key_accepted, internal_api.
    rewrite <- Hh.
    destruct (truthy_str (INTERNAL_API_KEY env)); simpl; [|now split].
    destruct (strict_neq (api_key_header req1) (INTERNAL_API_KEY env));
      simpl; [now split | discriminate].
  - intros env req H. unfold internal_api. now rewrite H.
Qed.

Lemma body_is_not_read_before_the_key_check_witness :
  (internal_api env0 (mkRequest (Some "guess") (Some zero_amount_body))
   = internal_api env0 (mkRequest (Some "guess") None)
   /\ report_of
        (internal_api env0 (mkRequest (Some "guess") (Some zero_amount_body)))
      = None)
  /\ internal_api (mkEnv "2025-10-31T12:00:00.000Z" (Some ""))
       (mkRequest (Some "") (Some zero_amount_body))
     = mkResponse 500 (ErrorText "Server configuration error").
Proof.
  split.
  - apply (proj1 body_is_not_read_before_the_key_check); reflexivity.
  - apply (proj2 body_is_not_read_before_the_key_check). reflexivity.
Defined.

(** X16: behind the key check the internal route runs the logic of the
    paid entry point. For a request that passes the key check and has a
    JSON body, the route answers 200 with the report the entry point
    gives for that body, or 500 with the validation error the entry point
    gives. *)
Theorem internal_route_runs_the_entry_point
  (env : Env) (req : Request) (b : json) :
  key_accepted env req = true ->
  body req = Some b ->
  internal_api env req
  = match entrypoint env b with
    | inr out => mkResponse 200 (Report out)
    | inl iss => mkResponse 500 (ErrorOf (ZodError iss))
    end.
Proof.
  unfold key_accepted, internal_api, entrypoint, handler.
  intros Hk Hb. apply andb_true_iff in Hk. destruct Hk as [Hk Hs].
  apply negb_true_iff in Hs. rewrite Hk, Hs, Hb. simpl.
  destruct (ArbitrageInputSchema_parse b); reflexivity.
Qed.

Lemma internal_route_runs_the_entry_point_witness :
  internal_api env0 (authorised zero_amount_body)
  = match entrypoint env0 zero_amount_body with
    | inr out => mkResponse 200 (Report out)
    | inl iss => mkResponse 500 (ErrorOf (ZodError iss))
    end.
Proof.
  apply (internal_route_runs_the_entry_point env0
           (authorised zero_amount_body) zero_amount_body);
    reflexivity.
Defined.
